(** * pbmc3k-analysis: scripts/download_pbmc3k.py

    A shallow embedding of the download script and of the part of its
    environment that its behaviour depends on: a store of directories and
    files, the buffered text stream [sys.stdout] over its descriptor, the
    outcome of every call the script makes (a trace, in program order),
    what an observer of the process sees and when (a timeline of the calls
    and of the text reaching the descriptor), and the interpreter's exit.

    The script is straight-line code over five library calls.  It is written
    below in a state-and-exception monad so that it reads like the source;
    the library calls are the primitive operations of that monad. *)

From Stdlib Require Import Ascii String.
From stdpp Require Import base option list strings gmap.

Local Open Scope string_scope.

(** ** Exceptions

    The classes of errors the modelled calls raise.  All of them are
    [Exception] subclasses; those that [mkdir] raises are [OSError]
    subclasses, which is what [os.makedirs] catches around it. *)
Inductive Exc : Type :=
  | FileExistsError
  | FileNotFoundError
  | NotADirectoryError
  | IsADirectoryError
  | PermissionError
  | BrokenPipeError
  | ImportError
  | OtherError (msg : string).

#[global] Instance Exc_eq_dec : EqDecision Exc.
Proof. solve_decision. Defined.

(** ** Paths *)
Module Path.

(** [split_sep s cur] cuts [s] at every ["/"]; [cur] is the component
    being read. *)
Fixpoint split_sep (s cur : string) : list string :=
  match s with
  | EmptyString => [cur]
  | String c s' =>
      if Ascii.eqb c "/" then cur :: split_sep s' ""
      else split_sep s' (cur ++ String c "")
  end.

(** The names a path string walks through.  Empty components (doubled or
    trailing separators) are dropped; [.] and [..] and symbolic links are
    not interpreted, and every path is taken relative to the working
    directory, which is the empty list. *)
Definition components (name : string) : list string :=
  List.filter (fun c => negb (String.eqb c "")) (split_sep name "").

Fixpoint endswith_sep (s : string) : bool :=
  match s with
  | EmptyString => false
  | String c EmptyString => Ascii.eqb c "/"
  | String _ s' => endswith_sep s'
  end.

Definition startswith_sep (s : string) : bool :=
  match s with
  | String c _ => Ascii.eqb c "/"
  | EmptyString => false
  end.

(** [os.path.join(a, b)] on a POSIX system (posixpath.join with one
    extra component). *)
Definition join (a b : string) : string :=
  if startswith_sep b then b
  else if String.eqb a "" || endswith_sep a then a ++ b
  else a ++ "/" ++ b.

Definition parent (p : list string) : list string := removelast p.

End Path.

(** ** The store of directories and files *)
Module FileSystem.

Inductive node : Type :=
  | Dir (writable : bool)
  | File (content : list Byte.byte).

(** A store maps the component list of a path to what is there; the
    working directory is the entry of the empty list. *)
Abbreviation FS := (gmap (list string) node).

Definition path_exists (p : list string) (fs : FS) : bool :=
  bool_decide (is_Some (fs !! p)).

Definition isdir (p : list string) (fs : FS) : bool :=
  match fs !! p with
  | Some (Dir _) => true
  | _ => false
  end.


(** [os.mkdir]: one new directory, in an existing writable directory.  It
    either makes the directory or leaves the store as it is.  The new
    directory is writable (the usual umask). *)
Definition mkdir (p : list string) (fs : FS) : Exc + FS :=
  match fs !! p with
  | Some _ => inl FileExistsError
  | None =>
      match fs !! Path.parent p with
      | None => inl FileNotFoundError
      | Some (File _) => inl NotADirectoryError
      | Some (Dir false) => inl PermissionError
      | Some (Dir true) => inr (<[p := Dir true]> fs)
      end
  end.

(** Modelled from the spec: [os.makedirs] is the Python standard
    library's and not part of this repository.  Section 4.1: ensure the
    directory exists, creating parent directories as needed; succeed
    silently if it already exists; fail only on errors of the underlying
    store.  The function follows the library's own recursion: the path
    is [head/tail]; a missing [head] is made first (a [FileExistsError]
    from that call is swallowed); then [mkdir] is tried, and its error is
    re-raised unless [exist_ok] holds and the path is a directory.  The
    argument is the component list in reverse, innermost name first.
    A call that raises hands back, with the error, the store as it then
    is: directories made on the way stay, nothing is rolled back. *)
Fixpoint makedirs_rev (rp : list string) (exist_ok : bool) (fs : FS)
  : Exc * FS + FS :=
  let made_head :=
    match rp with
    | _ :: rhead =>
        match rhead with
        | [] => inr fs
        | _ :: _ =>
            if path_exists (rev rhead) fs then inr fs
            else
              match makedirs_rev rhead exist_ok fs with
              | inl (FileExistsError, fs1) => inr fs1
              | r => r
              end
        end
    | [] => inr fs
    end in
  match made_head with
  | inl failed => inl failed
  | inr fs1 =>
      match mkdir (rev rp) fs1 with
      | inr fs2 => inr fs2
      | inl e =>
          if negb exist_ok || negb (isdir (rev rp) fs1) then inl (e, fs1)
          else inr fs1
      end
  end.

(** [os.makedirs(name, exist_ok=exist_ok)].  The empty string names
    nothing: [mkdir("")] raises [FileNotFoundError] and [isdir("")] is
    false, so the error is re-raised. *)
Definition makedirs (name : string) (exist_ok : bool) (fs : FS)
  : Exc * FS + FS :=
  if String.eqb name "" then inl (FileNotFoundError, fs)
  else makedirs_rev (rev (Path.components name)) exist_ok fs.

(** The store a call leaves behind, whether it returned or raised. *)
Definition store_after (r : Exc * FS + FS) : FS :=
  match r with
  | inl (_, fs') => fs'
  | inr fs' => fs'
  end.


(** [fs'] is [fs] with new writable directories, all of them on the way
    to [p]; nothing is removed or replaced. *)
Definition extends_towards (p : list string) (fs fs' : FS) : Prop :=
  forall q, fs' !! q = fs !! q
            \/ (fs !! q = None /\ fs' !! q = Some (Dir true) /\ q `prefix_of` p).

End FileSystem.

Import FileSystem.

(** ** The container format *)

(** Modelled from the spec: the on-disk format is the anndata library's
    (the source names it: .h5ad) and not part of this repository.
    Section 6 and the glossary: a fixed binary container format, readable
    back into the dataset.  A file of the format starts with the fixed
    signature of the container (the eight bytes of an HDF5 file); what
    follows depends on the dataset. *)
Definition h5_signature : list Byte.byte :=
  [Byte.x89; Byte.x48; Byte.x44; Byte.x46; Byte.x0d; Byte.x0a; Byte.x1a; Byte.x0a].

Definition h5ad {Dataset : Type} (payload : Dataset -> list Byte.byte)
    (d : Dataset) : list Byte.byte :=
  h5_signature ++ payload d.

(** ** The script *)
Section Script.

(** The in-memory annotated matrix.  The script never looks inside it,
    so it is an arbitrary type here. *)
Context {Dataset : Type}.

(** The bytes a dataset is stored as by the writer; for the program as it
    is this is [h5ad]. *)
Variable encode : Dataset -> list Byte.byte.

(** One entry per statement of the script that can raise or that reaches
    outside the interpreter, with its outcome: the two imports and the four
    calls with effects.  [os.path.join] computes a string and is not
    logged.  Execution is sequential, each call returns before the next
    begins, so the order of the trace is the order of the calls. *)
Inductive event : Type :=
  | EvImport (module : string) (r : option Exc)
  | EvMakedirs (name : string) (exist_ok : bool) (r : option Exc)
  | EvPrint (line : string) (r : option Exc)
  | EvFetch (r : Exc + Dataset)
  | EvWrite (d : Dataset) (path : string) (r : option Exc).

(** What an observer of the process sees, in order: the calls, and the
    chunks of text that reach the descriptor of standard output. *)
Inductive tick : Type :=
  | Call (ev : event)
  | Out (chunk : string).

Definition newline : string := String (ascii_of_nat 10) "".

(** [sys.stdout]: a buffered text stream over a file descriptor.
    [line_buffering] holds when the text of a print goes to the descriptor
    at once (a terminal, or the interpreter run unbuffered); otherwise the
    text waits in the buffer until the interpreter flushes it at exit (a
    pipe or a file; the buffer is far larger than what the script prints).
    [writes_left] is [None] for a descriptor that takes every write, and
    [Some n] for one whose reader goes away after [n] more writes.
    [delivered] has reached the descriptor, [pending] waits in the buffer. *)
Record Stream : Type := {
  line_buffering : bool;
  writes_left : option nat;
  delivered : string;
  pending : string
}.

(** The text the stream has taken, delivered or not. *)
Definition text (out : Stream) : string := delivered out ++ pending out.

Record World : Type := {
  fs : FS;
  stdout : Stream;
  trace : list event;
  timeline : list tick
}.

(** What one execution meets and cannot control: whether the imported
    modules load, what the retrieval call returns or raises, whether the
    library downloads (and then caches) or finds its cache, and whether
    the write is cut short after some bytes. *)
Record Env : Type := {
  importable : string -> option Exc;
  fetch_result : Exc + Dataset;
  fetch_cache : option (list Byte.byte);
  write_fault : option (nat * Exc)
}.

(** Computations read the environment, update the world and may raise. *)
Definition M (A : Type) : Type := Env -> World -> (Exc + A) * World.

#[local] Instance M_ret : MRet M := fun A a _ w => (inr a, w).
#[local] Instance M_bind : MBind M := fun A B f m env w =>
  match m env w with
  | (inl e, w') => (inl e, w')
  | (inr a, w') => f a env w'
  end.

Definition log (ev : event) (w : World) : World :=
  {| fs := fs w; stdout := stdout w; trace := trace w ++ [ev];
     timeline := timeline w ++ [Call ev] |}.

(** [import module] *)
Definition import_module (module : string) : M unit := fun env w =>
  match importable env module with
  | Some e => (inl e, log (EvImport module (Some e)) w)
  | None => (inr tt, log (EvImport module None) w)
  end.

(** [os.makedirs(name, exist_ok=exist_ok)] *)
Definition os_makedirs (name : string) (exist_ok : bool) : M unit := fun _ w =>
  match makedirs name exist_ok (fs w) with
  | inl (e, fs') =>
      (inl e, log (EvMakedirs name exist_ok (Some e))
                {| fs := fs'; stdout := stdout w; trace := trace w;
                   timeline := timeline w |})
  | inr fs' =>
      (inr tt, log (EvMakedirs name exist_ok None)
                 {| fs := fs'; stdout := stdout w; trace := trace w;
                    timeline := timeline w |})
  end.

(** The buffer goes to the descriptor in one write; an empty buffer needs
    none.  The result is the chunk written, if any, and the stream after
    it; a refused write is [None]. *)
Definition flush (out : Stream) : option (list string * Stream) :=
  let sent left :=
    Some ([pending out],
          {| line_buffering := line_buffering out; writes_left := left;
             delivered := delivered out ++ pending out; pending := "" |}) in
  if String.eqb (pending out) "" then Some ([], out)
  else
    match writes_left out with
    | Some 0 => None
    | Some (S n) => sent (Some n)
    | None => sent None
    end.

(** A write to the stream: the text goes to the buffer, and on to the
    descriptor when the stream is line buffered. *)
Definition stream_write (s : string) (out : Stream)
  : option (list string * Stream) :=
  let buffered :=
    {| line_buffering := line_buffering out; writes_left := writes_left out;
       delivered := delivered out; pending := pending out ++ s |} in
  if line_buffering out then flush buffered else Some ([], buffered).

(** [print(line)]: the line and a newline go to [sys.stdout], with no
    flush of the script's own; a write the descriptor refuses raises
    [BrokenPipeError] and the text is lost. *)
Definition print (line : string) : M unit := fun _ w =>
  match stream_write (line ++ newline) (stdout w) with
  | None => (inl BrokenPipeError, log (EvPrint line (Some BrokenPipeError)) w)
  | Some (chunks, out) =>
      (inr tt, log (EvPrint line None)
                 {| fs := fs w; stdout := out; trace := trace w;
                    timeline := timeline w ++ map Out chunks |})
  end.

(** Where the retrieval library keeps its download: the file
    data/pbmc3k_raw.h5ad, under its default dataset directory. *)
Definition cache_path : list string := ["data"; "pbmc3k_raw.h5ad"].

Definition cache_store (raw : option (list Byte.byte)) (fs : FS) : FS :=
  match raw with
  | None => fs
  | Some bs =>
      match fs !! Path.parent cache_path, fs !! cache_path with
      | Some (Dir _), Some (File _) | Some (Dir _), None =>
          <[cache_path := File bs]> fs
      | _, _ => fs
      end
  end.

(** Modelled from the spec: [sc.datasets.pbmc3k] is the scanpy library's
    and not part of this repository.  Section 4.2: no inputs; returns the
    dataset or raises; possibly a local cache write performed by the
    library itself.  A retrieval that returns may have written the
    library's cache file (the environment says whether it downloaded or
    found the file there); one that raises leaves nothing behind. *)
Definition sc_datasets_pbmc3k : M Dataset := fun env w =>
  match fetch_result env with
  | inl e => (inl e, log (EvFetch (inl e)) w)
  | inr d =>
      (inr d, log (EvFetch (inr d))
                {| fs := cache_store (fetch_cache env) (fs w);
                   stdout := stdout w; trace := trace w;
                   timeline := timeline w |})
  end.

(** Modelled from the spec: [AnnData.write] is the anndata library's and
    not part of this repository.  Sections 4.3 and 7: the dataset is
    serialized to one file at the destination, any existing file there is
    overwritten without warning, errors propagate, and a failed write may
    leave a truncated or absent file.  The file is opened for writing
    first (an existing file is truncated, a new one needs a writable
    directory, a directory in the way is an error), then filled. *)
Definition write_file (d : Dataset) (path : string) (fault : option (nat * Exc))
    (fs : FS) : option Exc * FS :=
  let p := Path.components path in
  let fill :=
    match fault with
    | Some (n, e) => (Some e, <[p := File (take n (encode d))]> fs)
    | None => (None, <[p := File (encode d)]> fs)
    end in
  if String.eqb path "" then (Some FileNotFoundError, fs)
  else
    match fs !! p with
    | Some (Dir _) => (Some IsADirectoryError, fs)
    | Some (File _) => fill
    | None =>
        match fs !! Path.parent p with
        | None => (Some FileNotFoundError, fs)
        | Some (File _) => (Some NotADirectoryError, fs)
        | Some (Dir false) => (Some PermissionError, fs)
        | Some (Dir true) => fill
        end
    end.

(** [adata.write(path)] *)
Definition adata_write (adata : Dataset) (path : string) : M unit := fun env w =>
  let '(r, fs') := write_file adata path (write_fault env) (fs w) in
  (match r with Some e => inl e | None => inr tt end,
   log (EvWrite adata path r)
     {| fs := fs'; stdout := stdout w; trace := trace w;
        timeline := timeline w |}).

Definition os_path_join : string -> string -> string := Path.join.

Definition output_path : string := "data/raw".

(** scripts/download_pbmc3k.py, top to bottom. *)
Definition script : M unit :=
  import_module "scanpy" ;;
  import_module "os" ;;
  os_makedirs output_path true ;;
  print "Downloading PBMC 3k dataset..." ;;
  adata ← sc_datasets_pbmc3k ;
  let save_path := os_path_join output_path "pbmc3k.h5ad" in
  adata_write adata save_path ;;
  print ("Dataset saved to " ++ save_path).

(** The module body, run in a store and with a standard output: how it
    ends, and the world when it does. *)
Definition run (env : Env) (fs0 : FS) (out0 : Stream) : (Exc + unit) * World :=
  script env {| fs := fs0; stdout := out0; trace := []; timeline := [] |}.

(** The exit status of the interpreter.  At exit it flushes standard
    output; when that fails the status is 120.  Otherwise it is 0 when the
    module body returned and 1 when an exception reached the top level. *)
Definition exit_code (r : Exc + unit) (out : Stream) : Z :=
  match flush out with
  | None => 120
  | Some _ =>
      match r with
      | inr _ => 0
      | inl _ => 1
      end
  end.

(** The end of the process: the last flush, and the exit status. *)
Definition finalize (r : Exc + unit) (w : World) : Z * World :=
  (exit_code r (stdout w),
   match flush (stdout w) with
   | Some (chunks, out) =>
       {| fs := fs w; stdout := out; trace := trace w;
          timeline := timeline w ++ map Out chunks |}
   | None => w
   end).

(** The whole process, from start to exit. *)
Definition process (env : Env) (fs0 : FS) (out0 : Stream) : Z * World :=
  let '(r, w) := run env fs0 out0 in finalize r w.

(** *** Vocabulary for the statements *)

(** The value of the script's variable [save_path]. *)
Definition save_path : string := os_path_join output_path "pbmc3k.h5ad".

(** Where [save_path] points in the store. *)
Definition destination : list string := Path.components save_path.

Definition start_line : string := "Downloading PBMC 3k dataset...".
Definition done_line : string := "Dataset saved to " ++ save_path.


(** The text the calls of a trace put on standard output. *)
Fixpoint emitted (tr : list event) : string :=
  match tr with
  | [] => ""
  | EvPrint line None :: tr' => line ++ newline ++ emitted tr'
  | _ :: tr' => emitted tr'
  end.

(** How often a run makes each of the calls that reach outside. *)
Definition is_fetch (ev : event) : bool :=
  match ev with EvFetch _ => true | _ => false end.

Definition is_write (ev : event) : bool :=
  match ev with EvWrite _ _ _ => true | _ => false end.

Definition is_makedirs (ev : event) : bool :=
  match ev with EvMakedirs _ _ _ => true | _ => false end.

Definition calls (which : event -> bool) (tr : list event) : nat :=
  length (List.filter which tr).

Definition imports_done : list event :=
  [EvImport "scanpy" None; EvImport "os" None].

(** The trace of a run in which every call returns. *)
Definition full_trace (d : Dataset) : list event :=
  imports_done ++
  [EvMakedirs output_path true None; EvPrint start_line None;
   EvFetch (inr d); EvWrite d save_path None; EvPrint done_line None].

(** The calls among the ticks of a timeline. *)
Fixpoint calls_of (tl : list tick) : list event :=
  match tl with
  | [] => []
  | Call ev :: tl' => ev :: calls_of tl'
  | Out _ :: tl' => calls_of tl'
  end.

(** The timeline of the calls of a trace on a line-buffered stream: the
    text of a print reaches the descriptor within the call. *)
Fixpoint line_timeline (tr : list event) : list tick :=
  match tr with
  | [] => []
  | EvPrint line None :: tr' =>
      Out (line ++ newline) :: Call (EvPrint line None) :: line_timeline tr'
  | ev :: tr' => Call ev :: line_timeline tr'
  end.

(** The starting line has reached the descriptor before any fetch call. *)
Definition start_out_before_fetch (tl : list tick) : Prop :=
  forall i x, tl !! i = Some (Call (EvFetch x)) ->
    exists j, j < i /\ tl !! j = Some (Out (start_line ++ newline)).

(** The chunks through which the completion line can reach the descriptor:
    on its own, or behind the starting line in one flush. *)
Definition carries_done_line (chunk : string) : Prop :=
  chunk = done_line ++ newline
  \/ chunk = start_line ++ newline ++ done_line ++ newline.

(** The eight shapes an execution can take: the script stops at the
    first call that raises, or runs to its end. *)
Inductive Execution (env : Env) (fs0 : FS) (out0 : Stream)
  : (Exc + unit) * World -> Prop :=
  | ExImportScanpy e :
      importable env "scanpy" = Some e ->
      Execution env fs0 out0
        (inl e, {| fs := fs0; stdout := out0;
                   trace := [EvImport "scanpy" (Some e)];
                   timeline := map Call [EvImport "scanpy" (Some e)] |})
  | ExImportOs e :
      importable env "scanpy" = None ->
      importable env "os" = Some e ->
      Execution env fs0 out0
        (inl e, {| fs := fs0; stdout := out0;
                   trace := [EvImport "scanpy" None; EvImport "os" (Some e)];
                   timeline := map Call [EvImport "scanpy" None;
                                         EvImport "os" (Some e)] |})
  | ExMakedirs e fs1 :
      importable env "scanpy" = None ->
      importable env "os" = None ->
      makedirs output_path true fs0 = inl (e, fs1) ->
      Execution env fs0 out0
        (inl e, {| fs := fs1; stdout := out0;
                   trace := imports_done
                            ++ [EvMakedirs output_path true (Some e)];
                   timeline := map Call (imports_done
                                ++ [EvMakedirs output_path true (Some e)]) |})
  | ExPrintStart fs1 :
      importable env "scanpy" = None ->
      importable env "os" = None ->
      makedirs output_path true fs0 = inr fs1 ->
      stream_write (start_line ++ newline) out0 = None ->
      Execution env fs0 out0
        (inl BrokenPipeError,
         {| fs := fs1; stdout := out0;
            trace := imports_done
                     ++ [EvMakedirs output_path true None;
                         EvPrint start_line (Some BrokenPipeError)];
            timeline := map Call (imports_done
                         ++ [EvMakedirs output_path true None;
                             EvPrint start_line (Some BrokenPipeError)]) |})
  | ExFetch fs1 c1 out1 e :
      importable env "scanpy" = None ->
      importable env "os" = None ->
      makedirs output_path true fs0 = inr fs1 ->
      stream_write (start_line ++ newline) out0 = Some (c1, out1) ->
      fetch_result env = inl e ->
      Execution env fs0 out0
        (inl e,
         {| fs := fs1; stdout := out1;
            trace := imports_done
                     ++ [EvMakedirs output_path true None;
                         EvPrint start_line None; EvFetch (inl e)];
            timeline := map Call (imports_done
                                  ++ [EvMakedirs output_path true None])
                        ++ map Out c1
                        ++ map Call [EvPrint start_line None;
                                     EvFetch (inl e)] |})
  | ExWrite fs1 c1 out1 d e fs2 :
      importable env "scanpy" = None ->
      importable env "os" = None ->
      makedirs output_path true fs0 = inr fs1 ->
      stream_write (start_line ++ newline) out0 = Some (c1, out1) ->
      fetch_result env = inr d ->
      write_file d save_path (write_fault env)
        (cache_store (fetch_cache env) fs1) = (Some e, fs2) ->
      Execution env fs0 out0
        (inl e,
         {| fs := fs2; stdout := out1;
            trace := imports_done
                     ++ [EvMakedirs output_path true None;
                         EvPrint start_line None; EvFetch (inr d);
                         EvWrite d save_path (Some e)];
            timeline := map Call (imports_done
                                  ++ [EvMakedirs output_path true None])
                        ++ map Out c1
                        ++ map Call [EvPrint start_line None;
                                     EvFetch (inr d);
                                     EvWrite d save_path (Some e)] |})
  | ExPrintDone fs1 c1 out1 d fs2 :
      importable env "scanpy" = None ->
      importable env "os" = None ->
      makedirs output_path true fs0 = inr fs1 ->
      stream_write (start_line ++ newline) out0 = Some (c1, out1) ->
      fetch_result env = inr d ->
      write_file d save_path (write_fault env)
        (cache_store (fetch_cache env) fs1) = (None, fs2) ->
      stream_write (done_line ++ newline) out1 = None ->
      Execution env fs0 out0
        (inl BrokenPipeError,
         {| fs := fs2; stdout := out1;
            trace := imports_done
                     ++ [EvMakedirs output_path true None;
                         EvPrint start_line None; EvFetch (inr d);
                         EvWrite d save_path None;
                         EvPrint done_line (Some BrokenPipeError)];
            timeline := map Call (imports_done
                                  ++ [EvMakedirs output_path true None])
                        ++ map Out c1
                        ++ map Call [EvPrint start_line None;
                                     EvFetch (inr d);
                                     EvWrite d save_path None;
                                     EvPrint done_line (Some BrokenPipeError)] |})
  | ExDone fs1 c1 out1 d fs2 c2 out2 :
      importable env "scanpy" = None ->
      importable env "os" = None ->
      makedirs output_path true fs0 = inr fs1 ->
      stream_write (start_line ++ newline) out0 = Some (c1, out1) ->
      fetch_result env = inr d ->
      write_file d save_path (write_fault env)
        (cache_store (fetch_cache env) fs1) = (None, fs2) ->
      stream_write (done_line ++ newline) out1 = Some (c2, out2) ->
      Execution env fs0 out0
        (inr tt,
         {| fs := fs2; stdout := out2; trace := full_trace d;
            timeline := map Call (imports_done
                                  ++ [EvMakedirs output_path true None])
                        ++ map Out c1
                        ++ map Call [EvPrint start_line None;
                                     EvFetch (inr d);
                                     EvWrite d save_path None]
                        ++ map Out c2
                        ++ map Call [EvPrint done_line None] |}).

End Script.

(** ** Sample executions

    Concrete datasets, environments and stores on which the script is
    evaluated below. *)
Module Sample.

(** A dataset is its payload. *)
Definition encode : list Byte.byte -> list Byte.byte := h5ad (fun d => d).

Definition pbmc : list Byte.byte := [Byte.x01; Byte.x02; Byte.x03].
Definition pbmc' : list Byte.byte := [Byte.x04].

(** The retrieval returns [d] from the library's cache and nothing fails. *)
Definition online (d : list Byte.byte) : Env :=
  {| importable := fun _ => None; fetch_result := inr d;
     fetch_cache := None; write_fault := None |}.

(** The retrieval downloads, caches and returns [pbmc]. *)
Definition first_download : @Env (list Byte.byte) :=
  {| importable := fun _ => None; fetch_result := inr pbmc;
     fetch_cache := Some [Byte.x10; Byte.x11]; write_fault := None |}.

(** The retrieval raises. *)
Definition offline : @Env (list Byte.byte) :=
  {| importable := fun _ => None;
     fetch_result := inl (OtherError "URLError");
     fetch_cache := None;
     write_fault := None |}.

(** An empty, writable working directory. *)
Definition fresh_store : FS := {[ [] := Dir true ]}.

(** A working directory in which data/raw/pbmc3k.h5ad is already there. *)
Definition used_store : FS :=
  <[ ["data"; "raw"; "pbmc3k.h5ad"] := File [Byte.xff] ]>
    (<[ ["data"; "raw"] := Dir true ]>
       (<[ ["data"] := Dir true ]> fresh_store)).

(** A terminal. *)
Definition console : Stream :=
  {| line_buffering := true; writes_left := None;
     delivered := ""; pending := "" |}.

(** A pipe with a reader, and a pipe whose reader is gone. *)
Definition pipe : Stream :=
  {| line_buffering := false; writes_left := None;
     delivered := ""; pending := "" |}.

Definition closed_pipe : Stream :=
  {| line_buffering := false; writes_left := Some 0;
     delivered := ""; pending := "" |}.

Definition both_lines : string :=
  "Downloading PBMC 3k dataset..." ++ newline
  ++ "Dataset saved to data/raw/pbmc3k.h5ad" ++ newline.

(** What the sample executions are expected to leave behind. *)
Definition made_store : FS :=
  <[ ["data"; "raw"] := Dir true ]> (<[ ["data"] := Dir true ]> fresh_store).

Definition saved_store (d : list Byte.byte) : FS :=
  <[ ["data"; "raw"; "pbmc3k.h5ad"] := File (encode d) ]> made_store.

Definition online_end (d : list Byte.byte) : World :=
  {| fs := saved_store d;
     stdout := {| line_buffering := true; writes_left := None;
                  delivered := both_lines; pending := "" |};
     trace := full_trace d;
     timeline :=
       [Call (EvImport "scanpy" None); Call (EvImport "os" None);
        Call (EvMakedirs "data/raw" true None);
        Out ("Downloading PBMC 3k dataset..." ++ newline);
        Call (EvPrint "Downloading PBMC 3k dataset..." None);
        Call (EvFetch (inr d));
        Call (EvWrite d "data/raw/pbmc3k.h5ad" None);
        Out ("Dataset saved to data/raw/pbmc3k.h5ad" ++ newline);
        Call (EvPrint "Dataset saved to data/raw/pbmc3k.h5ad" None)] |}.

(** The same run into a pipe: nothing has reached the descriptor when the
    module body ends. *)
Definition piped_end (out : Stream) : @World (list Byte.byte) :=
  {| fs := saved_store pbmc;
     stdout := {| line_buffering := false; writes_left := writes_left out;
                  delivered := ""; pending := both_lines |};
     trace := full_trace pbmc;
     timeline := map Call (full_trace pbmc) |}.

(** The piped process after exit: the two lines reach the descriptor in
    one chunk, after every call. *)
Definition piped_exit : @World (list Byte.byte) :=
  {| fs := saved_store pbmc;
     stdout := {| line_buffering := false; writes_left := None;
                  delivered := both_lines; pending := "" |};
     trace := full_trace pbmc;
     timeline := map Call (full_trace pbmc) ++ [Out both_lines] |}.

Definition offline_end : @World (list Byte.byte) :=
  {| fs := made_store;
     stdout := {| line_buffering := true; writes_left := None;
                  delivered := "Downloading PBMC 3k dataset..." ++ newline;
                  pending := "" |};
     trace := imports_done
              ++ [EvMakedirs "data/raw" true None;
                  EvPrint "Downloading PBMC 3k dataset..." None;
                  EvFetch (inl (OtherError "URLError"))];
     timeline :=
       [Call (EvImport "scanpy" None); Call (EvImport "os" None);
        Call (EvMakedirs "data/raw" true None);
        Out ("Downloading PBMC 3k dataset..." ++ newline);
        Call (EvPrint "Downloading PBMC 3k dataset..." None);
        Call (EvFetch (inl (OtherError "URLError")))] |}.

(** Further samples: scanpy is not installed; a file named data is in the
    way; the disk fills up two bytes into the write. *)
Definition no_scanpy : @Env (list Byte.byte) :=
  {| importable := fun m => if String.eqb m "scanpy" then Some ImportError else None;
     fetch_result := inr pbmc;
     fetch_cache := None;
     write_fault := None |}.

Definition blocked_store : FS := <[ ["data"] := File [] ]> fresh_store.

Definition disk_full : @Env (list Byte.byte) :=
  {| importable := fun _ => None;
     fetch_result := inr pbmc;
     fetch_cache := None;
     write_fault := Some (2, OtherError "disk full") |}.

Definition no_scanpy_end : @World (list Byte.byte) :=
  {| fs := fresh_store; stdout := console;
     trace := [EvImport "scanpy" (Some ImportError)];
     timeline := [Call (EvImport "scanpy" (Some ImportError))] |}.

Definition blocked_end : @World (list Byte.byte) :=
  {| fs := blocked_store; stdout := console;
     trace := imports_done
              ++ [EvMakedirs "data/raw" true (Some NotADirectoryError)];
     timeline := map Call (imports_done
                  ++ [EvMakedirs "data/raw" true (Some NotADirectoryError)]) |}.

Definition disk_full_end : @World (list Byte.byte) :=
  {| fs := <[ ["data"; "raw"; "pbmc3k.h5ad"] := File [Byte.x89; Byte.x48] ]>
             made_store;
     stdout := {| line_buffering := true; writes_left := None;
                  delivered := "Downloading PBMC 3k dataset..." ++ newline;
                  pending := "" |};
     trace := imports_done
              ++ [EvMakedirs "data/raw" true None;
                  EvPrint "Downloading PBMC 3k dataset..." None;
                  EvFetch (inr pbmc);
                  EvWrite pbmc "data/raw/pbmc3k.h5ad"
                    (Some (OtherError "disk full"))];
     timeline :=
       [Call (EvImport "scanpy" None); Call (EvImport "os" None);
        Call (EvMakedirs "data/raw" true None);
        Out ("Downloading PBMC 3k dataset..." ++ newline);
        Call (EvPrint "Downloading PBMC 3k dataset..." None);
        Call (EvFetch (inr pbmc));
        Call (EvWrite pbmc "data/raw/pbmc3k.h5ad"
                (Some (OtherError "disk full")))] |}.

(** A store that is not well formed: data/raw is there as a file, data is
    not.  The directory creation makes data and then fails. *)
Definition orphan_store : FS :=
  <[ ["data"; "raw"] := File [] ]> fresh_store.

Definition orphan_end : @World (list Byte.byte) :=
  {| fs := <[ ["data"] := Dir true ]> orphan_store; stdout := console;
     trace := imports_done
              ++ [EvMakedirs "data/raw" true (Some FileExistsError)];
     timeline := map Call (imports_done
                  ++ [EvMakedirs "data/raw" true (Some FileExistsError)]) |}.

(** The first download leaves the library's cache file beside data/raw. *)
Definition first_download_store : FS :=
  <[ ["data"; "raw"; "pbmc3k.h5ad"] := File (encode pbmc) ]>
    (<[ ["data"; "pbmc3k_raw.h5ad"] := File [Byte.x10; Byte.x11] ]> made_store).

Definition first_download_end : @World (list Byte.byte) :=
  {| fs := first_download_store;
     stdout := stdout (online_end pbmc);
     trace := full_trace pbmc;
     timeline := timeline (online_end pbmc) |}.

(** A terminal that shows a prompt and takes two more writes. *)
Definition prompt : Stream :=
  {| line_buffering := true; writes_left := Some 2;
     delivered := "$ "; pending := "" |}.

Definition used_end : @World (list Byte.byte) :=
  {| fs := saved_store pbmc;
     stdout := {| line_buffering := true; writes_left := Some 0;
                  delivered := "$ " ++ both_lines; pending := "" |};
     trace := full_trace pbmc;
     timeline := timeline (online_end pbmc) |}.

End Sample.
(** ** Properties of the store *)
Section FileSystemFacts.
Implicit Types (fs : FS) (p q : list string).



Lemma mkdir_inv p fs fs' :
  mkdir p fs = inr fs' ->
  fs !! p = None /\ fs !! Path.parent p = Some (Dir true)
  /\ fs' = <[p := Dir true]> fs.
Proof.
  unfold mkdir. intros H.
  destruct (fs !! p); [discriminate |].
  destruct (fs !! Path.parent p) as [[[]|]|]; simplify_eq. done.
Qed.

Lemma mkdir_isdir p fs fs' : mkdir p fs = inr fs' -> isdir p fs' = true.
Proof.
  intros (_ & _ & ->)%mkdir_inv. unfold isdir. by rewrite lookup_insert_eq.
Qed.


Lemma extends_refl p fs : extends_towards p fs fs.
Proof. intros q. by left. Qed.

Lemma mkdir_extends p fs fs' : mkdir p fs = inr fs' -> extends_towards p fs fs'.
Proof.
  intros (Hnone & _ & ->)%mkdir_inv q.
  destruct (decide (q = p)) as [-> | Hqp].
  - right. by rewrite lookup_insert_eq.
  - left. by rewrite lookup_insert_ne.
Qed.

Lemma extends_trans p x fs fs1 fs2 :
  extends_towards p fs fs1 -> extends_towards (p ++ [x])%list fs1 fs2 ->
  extends_towards (p ++ [x])%list fs fs2.
Proof.
  intros H1 H2 q. destruct (H1 q) as [E1 | (N1 & D1 & P1)], (H2 q) as [E2 | (N2 & D2 & P2)].
  - left. congruence.
  - right. rewrite <- E1. done.
  - right. rewrite E2. split_and!; [done.. |]. by apply prefix_app_r.
  - congruence.
Qed.



(** A call only adds directories on the way to its path, also when it
    raises. *)
Lemma makedirs_rev_extends rp ok fs :
  extends_towards (rev rp) fs (store_after (makedirs_rev rp ok fs)).
Proof.
  revert fs. induction rp as [| t rhead IH]; intros fs.
  - simpl. destruct (mkdir [] fs) as [e | fs2] eqn:Hmk.
    + destruct (negb ok || negb (isdir [] fs)); apply extends_refl.
    + by apply mkdir_extends.
  - cbn [makedirs_rev].
    set (made := match rhead with [] => _ | _ => _ end).
    assert (Hmade : extends_towards (rev rhead) fs (store_after made)).
    { subst made. destruct rhead as [| h rh]; [apply extends_refl |].
      destruct (path_exists (rev (h :: rh)) fs); [apply extends_refl |].
      specialize (IH fs).
      destruct (makedirs_rev (h :: rh) ok fs) as [[e fsp] | fs1']; [| done].
      by destruct e. }
    change (rev (t :: rhead)) with (rev rhead ++ [t])%list.
    destruct made as [[e fsp] | fs1]; simpl in Hmade |- *.
    { eapply extends_trans; [done | apply extends_refl]. }
    destruct (mkdir (rev rhead ++ [t])%list fs1) as [e | fs2] eqn:Hmk.
    + destruct (negb ok || negb (isdir (rev rhead ++ [t])%list fs1)); simpl;
        (eapply extends_trans; [done | apply extends_refl]).
    + simpl. eapply extends_trans; [done | by apply mkdir_extends].
Qed.

Lemma makedirs_rev_isdir rp fs fs' :
  makedirs_rev rp true fs = inr fs' -> isdir (rev rp) fs' = true.
Proof.
  destruct rp as [| t rhead]; cbn [makedirs_rev].
  - cbn [rev]. destruct (mkdir [] fs) as [e | fs2] eqn:Hmk.
    + destruct (isdir [] fs) eqn:Hd; simpl; [| discriminate]. by intros [= <-].
    + intros [= <-]. by eapply mkdir_isdir.
  - set (made := match rhead with [] => _ | _ => _ end).
    destruct made as [[e fsp] | fs1]; [discriminate |].
    destruct (mkdir (rev (t :: rhead)) fs1) as [e | fs2] eqn:Hmk.
    + destruct (isdir (rev (t :: rhead)) fs1) eqn:Hd; simpl; [| discriminate].
      by intros [= <-].
    + intros [= <-]. by eapply mkdir_isdir.
Qed.

Lemma makedirs_rev_sound rp fs fs' :
  makedirs_rev rp true fs = inr fs' ->
  isdir (rev rp) fs' = true /\ extends_towards (rev rp) fs fs'.
Proof.
  intros Hrun. split; [by eapply makedirs_rev_isdir |].
  pose proof (makedirs_rev_extends rp true fs) as H. by rewrite Hrun in H.
Qed.




End FileSystemFacts.
(** ** Properties of the script *)
Section ScriptFacts.
Context {Dataset : Type} (encode : Dataset -> list Byte.byte).
Implicit Types (env : @Env Dataset) (w : @World Dataset) (r : Exc + unit).

Lemma string_app_assoc (a b c : string) : (a ++ b) ++ c = a ++ b ++ c.
Proof.
  induction a as [| x a IH]; [done |].
  change (String x ((a ++ b) ++ c) = String x (a ++ b ++ c)). by rewrite IH.
Qed.

Lemma string_app_nil_r (a : string) : a ++ "" = a.
Proof.
  induction a as [| x a IH]; [done |].
  change (String x (a ++ "") = String x a). by rewrite IH.
Qed.

Lemma string_app_nil_l (a : string) : "" ++ a = a.
Proof. reflexivity. Qed.

Lemma string_app_nonempty (a b : string) : b <> "" -> String.eqb (a ++ b) "" = false.
Proof.
  intros Hb. apply String.eqb_neq. destruct a as [| x a]; [exact Hb |].
  change (String x (a ++ b) <> ""). discriminate.
Qed.

(** Every run has one of the eight shapes. *)
Lemma run_spec env fs0 out0 :
  Execution encode env fs0 out0 (run encode env fs0 out0).
Proof.
  unfold run, script, mbind, M_bind.
  unfold import_module, os_makedirs, print, sc_datasets_pbmc3k, adata_write, log.
  cbn [fs stdout trace timeline].
  destruct (importable env "scanpy") as [e |] eqn:Hsc; [by constructor |].
  destruct (importable env "os") as [e |] eqn:Hos; [by constructor |].
  cbn [fs stdout trace timeline app].
  destruct (makedirs output_path true fs0) as [[e fs1] | fs1] eqn:Hmk;
    [by constructor |].
  cbn [fs stdout trace timeline app].
  destruct (stream_write ("Downloading PBMC 3k dataset..." ++ newline) out0)
    as [[c1 out1] |] eqn:Hp1; [| by econstructor].
  cbn [fs stdout trace timeline app].
  destruct (fetch_result env) as [e | d] eqn:Hf.
  { cbn [fs stdout trace timeline app map].
    rewrite <- !(app_assoc _ _ _). by econstructor. }
  cbn [fs stdout trace timeline app].
  destruct (write_file encode d (os_path_join output_path "pbmc3k.h5ad")
              (write_fault env) (cache_store (fetch_cache env) fs1))
    as [[e |] fs2] eqn:Hw.
  { cbn [fs stdout trace timeline app map].
    rewrite <- !(app_assoc _ _ _). by econstructor. }
  cbn [fs stdout trace timeline app].
  destruct (stream_write _ out1) as [[c2 out2] |] eqn:Hp2.
  - cbn [fs stdout trace timeline app map].
    rewrite <- !(app_assoc _ _ _). by econstructor.
  - cbn [fs stdout trace timeline app map].
    rewrite <- !(app_assoc _ _ _). by econstructor.
Qed.

Lemma flush_text out c out' : flush out = Some (c, out') -> text out' = text out.
Proof.
  unfold flush, text. destruct (String.eqb (pending out) ""); [by intros [= <- <-] |].
  destruct (writes_left out) as [[| n] |]; intros [= <- <-]; cbn;
    by rewrite string_app_nil_r.
Qed.

Lemma stream_write_text s out c out' :
  stream_write s out = Some (c, out') -> text out' = text out ++ s.
Proof.
  unfold stream_write. destruct (line_buffering out).
  - intros H%flush_text. rewrite H. unfold text; cbn. by rewrite string_app_assoc.
  - intros [= <- <-]. unfold text; cbn. by rewrite string_app_assoc.
Qed.

Lemma write_file_done d fault fs1 fs2 :
  write_file encode d save_path fault fs1 = (None, fs2) ->
  fs2 = <[destination := File (encode d)]> fs1.
Proof.
  unfold write_file. change (String.eqb save_path "") with false. cbv iota.
  change (Path.components save_path) with destination.
  change (Path.parent destination) with ["data"; "raw"].
  destruct (fs1 !! destination) as [[w | bs] |];
    destruct (fs1 !! ["data"; "raw"]) as [[[] |] |];
    destruct fault as [[n e] |]; intros [= <-]; done.
Qed.

Lemma makedirs_output fs0 fs1 :
  makedirs output_path true fs0 = inr fs1 ->
  isdir ["data"; "raw"] fs1 = true /\ extends_towards ["data"; "raw"] fs0 fs1.
Proof. intros H. by apply (makedirs_rev_sound ["raw"; "data"]). Qed.

Lemma destination_untouched fs0 fs1 :
  extends_towards ["data"; "raw"] fs0 fs1 ->
  fs1 !! destination = fs0 !! destination.
Proof.
  intros H. destruct (H destination) as [E | (_ & _ & Hpre)]; [done |].
  apply prefix_length in Hpre. simpl in Hpre. lia.
Qed.

Lemma makedirs_failed fs0 e fs1 :
  makedirs output_path true fs0 = inl (e, fs1) ->
  extends_towards ["data"; "raw"] fs0 fs1.
Proof.
  intros H. pose proof (makedirs_rev_extends ["raw"; "data"] true fs0) as E.
  change (makedirs_rev ["raw"; "data"] true fs0)
    with (makedirs output_path true fs0) in E.
  by rewrite H in E.
Qed.

Lemma cache_store_frame raw fs1 q :
  q <> cache_path -> cache_store raw fs1 !! q = fs1 !! q.
Proof.
  intros Hq. unfold cache_store. destruct raw as [bs |]; [| done].
  destruct (fs1 !! Path.parent cache_path) as [[x | c] |]; [| done..].
  destruct (fs1 !! cache_path) as [[y | c] |]; [done | |];
    by rewrite lookup_insert_ne.
Qed.

Lemma cache_store_keeps raw fs1 q :
  is_Some (fs1 !! q) -> is_Some (cache_store raw fs1 !! q).
Proof.
  intros Hq. destruct (decide (q = cache_path)) as [-> | Hne];
    [| by rewrite cache_store_frame].
  unfold cache_store. destruct raw as [bs |]; [| done].
  destruct (fs1 !! Path.parent cache_path) as [[x | c] |]; [| done..].
  destruct (fs1 !! cache_path) as [[y | c] |] eqn:Hc;
    [rewrite Hc; eauto | |]; rewrite lookup_insert_eq; eauto.
Qed.

Lemma calls_of_app (a b : list (@tick Dataset)) :
  calls_of (a ++ b)%list = (calls_of a ++ calls_of b)%list.
Proof.
  induction a as [| [ev | c] a IH]; simpl; [done | by rewrite IH | done].
Qed.

Lemma calls_of_calls (tr : list (@event Dataset)) : calls_of (map Call tr) = tr.
Proof. induction tr as [| ev tr IH]; simpl; [done | by rewrite IH]. Qed.

Lemma calls_of_outs (c : list string) : @calls_of Dataset (map Out c) = [].
Proof. by induction c. Qed.

(** Turns a run into its shape. *)
Ltac run_cases H :=
  match type of H with
  | run ?enc ?env ?f ?o = _ =>
      let E := fresh "E" in
      pose proof (run_spec env f o) as E; rewrite H in E;
      inversion E; subst; clear E
  end.

(** Goes through the positions of a trace that is known in full. *)
Ltac split_index Hi i :=
  lazymatch type of Hi with
  | (_ :: _) !! _ = Some _ =>
      destruct i as [| i]; [simpl in Hi | simpl in Hi; split_index Hi i]
  | [] !! _ = Some _ => rewrite lookup_nil in Hi; discriminate Hi
  end.

Ltac in_trace :=
  repeat match goal with
    | H : In _ _ |- _ => simpl in H
    | H : _ \/ _ |- _ => destruct H
    | H : False |- _ => destruct H
    | H : @eq event _ ?v |- _ => is_var v; subst v
    | H : @eq event _ _ |- _ => first [discriminate H | injection H as ?; subst]
    | H : _ /\ _ |- _ => destruct H
    | H : ex _ |- _ => destruct H
    end.

(** The file a run leaves when the directory creation, the fetch and
    the write have all returned, for any encoding. *)
Lemma written_file_after_success env fs0 out0 r w :
  run encode env fs0 out0 = (r, w) ->
  In (EvMakedirs output_path true None) (trace w) ->
  (exists d, In (EvFetch (inr d)) (trace w)) ->
  (exists d, In (EvWrite d save_path None) (trace w)) ->
  exists d, fetch_result env = inr d
    /\ fs w !! ["data"; "raw"; "pbmc3k.h5ad"] = Some (File (encode d)).
Proof.
  intros Hrun Hmk Hf Hw. run_cases Hrun; cbn [trace fs] in *; in_trace.
  all: match goal with
       | H : write_file _ _ _ _ _ = (None, _) |- _ =>
           apply write_file_done in H as ->
       end.
  all: eexists; split; [done |].
  all: change ["data"; "raw"; "pbmc3k.h5ad"] with destination.
  all: by rewrite lookup_insert_eq.
Qed.

(** C2.  In every execution in which the fetch raises, the script makes
    no write call at all, the store at data/raw/pbmc3k.h5ad is what it
    was before the run, the raised error is the outcome of the process,
    and the exit status is not zero. *)
Theorem fetch_failure_writes_nothing env fs0 out0 r w e :
  run encode env fs0 out0 = (r, w) ->
  In (EvFetch (inl e)) (trace w) ->
  (forall d p o, ~ In (EvWrite d p o) (trace w))
  /\ fs w !! destination = fs0 !! destination
  /\ r = inl e
  /\ exit_code r (stdout w) <> 0%Z.
Proof.
  intros Hrun Hf. run_cases Hrun; cbn [trace fs stdout] in *; in_trace.
  split_and!; [| | done |].
  - intros d p o Hin. in_trace.
  - apply destination_untouched. by apply makedirs_output.
  - unfold exit_code. by destruct (flush _).
Qed.

(** C5.  After two successful runs in a row, the entry of the store at
    data/raw/pbmc3k.h5ad is a file whose bytes are the encoding of the
    dataset the second run fetched, and nothing else: what the first run
    wrote there is replaced. *)
Theorem second_run_overwrites env1 env2 fs0 out0 out1 w1 w2 :
  run encode env1 fs0 out0 = (inr tt, w1) ->
  run encode env2 (fs w1) out1 = (inr tt, w2) ->
  exists d1 d2,
    fetch_result env1 = inr d1 /\ fetch_result env2 = inr d2
    /\ fs w1 !! destination = Some (File (encode d1))
    /\ fs w2 !! destination = Some (File (encode d2)).
Proof.
  intros H1 H2. run_cases H1. run_cases H2. cbn [fs] in *.
  repeat match goal with
         | H : write_file _ _ _ _ _ = (None, _) |- _ =>
             apply write_file_done in H as ->
         end.
  eexists _, _. split_and!; [done.. | |]; by rewrite lookup_insert_eq.
Qed.

Lemma line_nonempty (line : string) : line ++ newline <> "".
Proof. destruct line; cbv; discriminate. Qed.

Lemma flush_empty out : pending out = "" -> flush out = Some ([], out).
Proof. intros H. unfold flush. by rewrite H. Qed.

Lemma flush_cases out :
  flush out = None
  \/ (pending out = "" /\ flush out = Some ([], out))
  \/ (pending out <> "" /\ exists out', flush out = Some ([pending out], out')).
Proof.
  unfold flush. destruct (String.eqb_spec (pending out) "") as [E | E];
    [right; left; done |].
  destruct (writes_left out) as [[| n] |]; [by left | right; right; eauto..].
Qed.

Lemma stream_write_line s out c out' :
  s <> "" -> line_buffering out = true ->
  stream_write s out = Some (c, out') ->
  c = [pending out ++ s] /\ pending out' = "" /\ line_buffering out' = true.
Proof.
  intros Hs Hl. unfold stream_write, flush. rewrite Hl. cbn [pending writes_left].
  rewrite (string_app_nonempty _ _ Hs).
  destruct (writes_left out) as [[| n] |]; [done | |]; by intros [= <- <-].
Qed.

Lemma stream_write_block s out c out' :
  line_buffering out = false ->
  stream_write s out = Some (c, out') ->
  c = [] /\ pending out' = pending out ++ s /\ line_buffering out' = false.
Proof. intros Hl. unfold stream_write. rewrite Hl. by intros [= <- <-]. Qed.

Lemma stream_write_refused s out :
  stream_write s out = None -> line_buffering out = true.
Proof. unfold stream_write. by destruct (line_buffering out). Qed.



(** On a line-buffered stream that starts with an empty buffer, nothing
    is left in the buffer when the module body ends. *)
Lemma line_buffered_nothing_pending env fs0 out0 r w :
  run encode env fs0 out0 = (r, w) ->
  line_buffering out0 = true -> pending out0 = "" ->
  pending (stdout w) = "".
Proof.
  intros Hrun Hl Hp. run_cases Hrun; cbn [stdout]; try done.
  all: repeat match goal with
         | H : stream_write _ ?o = Some _, Hl : line_buffering ?o = true |- _ =>
             apply (stream_write_line _ _ _ _ (line_nonempty _) Hl) in H
               as (_ & ? & ?)
         end; done.
Qed.


(** What an observer sees of the whole process, by the kind of standard
    output, when its buffer is empty at the start.  Line buffered: each
    print's text goes out within the call.  Otherwise: the calls, and
    then at most one chunk, the whole text, at exit. *)
Lemma process_timeline env fs0 out0 :
  pending out0 = "" ->
  let tl := timeline (process encode env fs0 out0).2 in
  let tr := trace (run encode env fs0 out0).2 in
  if line_buffering out0 then tl = line_timeline tr
  else tl = map Call tr
       \/ (emitted tr <> "" /\ tl = (map Call tr ++ [Out (emitted tr)])%list).
Proof.
  intros Hp. unfold process.
  pose proof (run_spec env fs0 out0) as E.
  destruct (run encode env fs0 out0) as [r w] eqn:Hrun. cbn [snd].
  unfold finalize. cbn [snd].
  destruct (line_buffering out0) eqn:Hl.
  - rewrite (flush_empty _ (line_buffered_nothing_pending _ _ _ _ _ Hrun Hl Hp)).
    cbn [timeline map]. rewrite app_nil_r.
    inversion E; subst; cbn [timeline trace]; try reflexivity.
    all: repeat match goal with
           | H : stream_write _ ?o = Some _, Hl : line_buffering ?o = true |- _ =>
               apply (stream_write_line _ _ _ _ (line_nonempty _) Hl) in H
                 as (-> & ? & ?)
           end.
    all: repeat match goal with H : pending _ = "" |- _ => rewrite H; clear H end.
    all: reflexivity.
  - assert (Htl : timeline w = map Call (trace w)
                  /\ pending (stdout w) = emitted (trace w)).
    { inversion E; subst; cbn [timeline trace stdout]; try (by rewrite Hp).
      all: try match goal with H : stream_write _ _ = None |- _ =>
             apply stream_write_refused in H; congruence end.
      all: repeat match goal with
             | H : stream_write _ ?o = Some _, Hl : line_buffering ?o = false |- _ =>
                 apply (stream_write_block _ _ _ _ Hl) in H as (-> & ? & ?)
             end.
      all: try match goal with H : stream_write _ _ = None |- _ =>
             apply stream_write_refused in H; congruence end.
      all: repeat match goal with H : pending _ = _ |- _ => rewrite H; clear H end.
      all: split; reflexivity. }
    destruct Htl as [Htl Hpend].
    destruct (flush_cases (stdout w)) as [Hf | [[_ Hf] | [Hne [out' Hf]]]];
      rewrite Hf; cbn [timeline map].
    + by left.
    + left. by rewrite app_nil_r.
    + right. by rewrite Htl, <- Hpend.
Qed.

(** C3 (amended).  In every execution the print call of the starting line
    has returned before the fetch call is made, and the print call of the
    completion line is made only after the write call has returned
    without error.  When standard output is line buffered, the starting
    line has also reached the descriptor before the fetch call.  When it
    is not, nothing reaches the descriptor before the last call of the
    script is over.  In both cases the text reaches the descriptor in
    chunks that hold the starting line alone, the completion line alone
    or both; a chunk with the completion line comes after the write call
    has returned without error. *)
Theorem status_lines_ordering env fs0 out0 :
  pending out0 = "" ->
  let tl := timeline (process encode env fs0 out0).2 in
  (forall i x, tl !! i = Some (Call (EvFetch x)) ->
     exists j, j < i
       /\ tl !! j = Some (Call (EvPrint "Downloading PBMC 3k dataset..." None)))
  /\ (forall i o,
        tl !! i = Some (Call (EvPrint "Dataset saved to data/raw/pbmc3k.h5ad" o)) ->
        exists j d, j < i
          /\ tl !! j = Some (Call (EvWrite d "data/raw/pbmc3k.h5ad" None)))
  /\ (line_buffering out0 = true -> start_out_before_fetch tl)
  /\ (line_buffering out0 = false ->
        forall j chunk i ev,
          tl !! j = Some (Out chunk) -> tl !! i = Some (Call ev) -> i < j)
  /\ (forall j chunk, tl !! j = Some (Out chunk) ->
        chunk = "Downloading PBMC 3k dataset..." ++ newline
        \/ carries_done_line chunk)
  /\ (forall j chunk, tl !! j = Some (Out chunk) -> carries_done_line chunk ->
        exists i d, i < j
          /\ tl !! i = Some (Call (EvWrite d "data/raw/pbmc3k.h5ad" None))).
Proof.
  intros Hp. pose proof (process_timeline env fs0 out0 Hp) as Htl.
  cbn zeta in *. set (tl := timeline _) in *. clearbody tl.
  pose proof (run_spec env fs0 out0) as E.
  destruct (run encode env fs0 out0) as [r w]. cbn [snd] in Htl.
  destruct (line_buffering out0) eqn:Hl.
  - subst tl.
    inversion E; subst; clear E; unfold full_trace, imports_done;
      cbn [trace line_timeline app]; unfold start_out_before_fetch.
    all: split_and!; try discriminate.
    all: try (intros _).
    all: intros i x **.
    all: repeat match goal with
           | Hi : _ !! ?k = Some _ |- _ =>
               is_var k; simpl in Hi; split_index Hi k; try discriminate Hi;
               try (injection Hi as <-)
           end.
    all: try (left; reflexivity).
    all: try (right; left; reflexivity).
    all: try match goal with
           | H : carries_done_line _ |- _ =>
               destruct H as [H | H]; vm_compute in H; discriminate H
           end.
    all: first [ exists 4; split; [lia | reflexivity]
               | exists 3; split; [lia | reflexivity]
               | eexists 6, _; split; [lia | reflexivity] ].
  - inversion E; subst; clear E; unfold full_trace, imports_done in Htl;
      cbn [trace emitted app map] in Htl; unfold start_out_before_fetch.
    all: destruct Htl as [-> | [Hne ->]]; try done.
    all: split_and!; try discriminate.
    all: try (intros _).
    all: intros i x **.
    all: repeat match goal with
           | Hi : _ !! ?k = Some _ |- _ =>
               is_var k; simpl in Hi; split_index Hi k; try discriminate Hi;
               try (injection Hi as <-)
           end.
    all: try lia.
    all: try (left; reflexivity).
    all: try (right; right; reflexivity).
    all: try match goal with
           | H : carries_done_line _ |- _ =>
               destruct H as [H | H]; vm_compute in H; discriminate H
           end.
    all: first [ exists 3; split; [lia | reflexivity]
               | eexists 5, _; split; [lia | reflexivity] ].
Qed.

(** C7.  The dataset goes from the fetch to the write untouched: in every
    execution, a write call comes right after the fetch call in the
    trace, with no call in between, its argument is the very dataset the
    fetch returned, and its path is [save_path]; and once the fetch has
    returned a dataset, the next call is that write.  When the write
    returns, the file holds the encoding of that dataset. *)
Theorem dataset_passed_unchanged env fs0 out0 :
  let tr := trace (run encode env fs0 out0).2 in
  (forall j d p o, tr !! j = Some (EvWrite d p o) ->
     p = save_path /\ fetch_result env = inr d
     /\ exists i, j = S i /\ tr !! i = Some (EvFetch (inr d)))
  /\ (forall i d, tr !! i = Some (EvFetch (inr d)) ->
        exists o, tr !! S i = Some (EvWrite d save_path o))
  /\ (forall j d p, tr !! j = Some (EvWrite d p None) ->
        fs (run encode env fs0 out0).2 !! destination
        = Some (File (encode d))).
Proof.
  pose proof (run_spec env fs0 out0) as E.
  destruct (run encode env fs0 out0) as [r w]. cbn [snd].
  inversion E; subst; cbn [trace fs]; clear E; split_and!.
  all: intros i d' **; unfold full_trace, imports_done in *.
  all: match goal with Hi : _ !! _ = Some _ |- _ =>
         simpl in Hi; split_index Hi i; try discriminate Hi;
         injection Hi as ?; subst end.
  all: try (split_and!; [done.. |]; eexists; split; reflexivity).
  all: try (eexists; reflexivity).
  all: match goal with
       | H : write_file _ _ _ _ _ = (None, _) |- _ =>
           apply write_file_done in H as ->
       end.
  all: by rewrite lookup_insert_eq.
Qed.

Lemma run_text env fs0 out0 r w :
  run encode env fs0 out0 = (r, w) ->
  text (stdout w) = text out0 ++ emitted (trace w).
Proof.
  intros Hrun. run_cases Hrun; cbn [trace stdout].
  all: repeat match goal with
         | H : stream_write _ _ = Some _ |- _ =>
             apply stream_write_text in H; rewrite H; clear H
         end.
  all: rewrite ?string_app_assoc; try reflexivity.
  all: symmetry; apply string_app_nil_r.
Qed.

(** The two logs of a run agree: the calls of the timeline are the trace. *)
Lemma run_timeline_calls env fs0 out0 :
  calls_of (timeline (run encode env fs0 out0).2)
  = trace (run encode env fs0 out0).2.
Proof.
  pose proof (run_spec env fs0 out0) as E.
  destruct (run encode env fs0 out0) as [r w]. cbn [snd].
  inversion E; subst; cbn [timeline trace]; clear E.
  all: repeat (simpl; rewrite ?calls_of_app, ?calls_of_outs).
  all: reflexivity.
Qed.

(** C8.  The text a run puts on standard output is what its successful
    print calls emit, appended to what was there; it is nothing, or the
    starting line, or the starting line and the completion line, each
    with its newline.  A run that succeeds emits exactly
    "Downloading PBMC 3k dataset..." and then "Dataset saved to "
    followed by the save path, which is data/raw/pbmc3k.h5ad. *)
Theorem status_lines_text env fs0 out0 r w :
  run encode env fs0 out0 = (r, w) ->
  text (stdout w) = text out0 ++ emitted (trace w)
  /\ (emitted (trace w) = ""
      \/ emitted (trace w) = "Downloading PBMC 3k dataset..." ++ newline
      \/ emitted (trace w)
         = "Downloading PBMC 3k dataset..." ++ newline
           ++ "Dataset saved to data/raw/pbmc3k.h5ad" ++ newline)
  /\ (r = inr tt ->
      emitted (trace w)
      = "Downloading PBMC 3k dataset..." ++ newline
        ++ ("Dataset saved to " ++ save_path) ++ newline)
  /\ save_path = "data/raw/pbmc3k.h5ad".
Proof.
  intros Hrun. split; [by eapply run_text |].
  run_cases Hrun; cbn [trace].
  all: split_and!; try discriminate; try reflexivity.
  all: auto.
Qed.

(** C9.  In every execution in which the directory creation returns and
    the fetch then raises, data/raw is a directory in the store the
    process leaves behind; that store is the one the directory creation
    produced, which differs from the initial one only by new directories
    on the way to data/raw. *)
Theorem directory_survives_failed_fetch env fs0 out0 r w e :
  run encode env fs0 out0 = (r, w) ->
  In (EvMakedirs output_path true None) (trace w) ->
  In (EvFetch (inl e)) (trace w) ->
  isdir ["data"; "raw"] (fs w) = true
  /\ makedirs output_path true fs0 = inr (fs w)
  /\ extends_towards ["data"; "raw"] fs0 (fs w).
Proof.
  intros Hrun Hmk Hf. run_cases Hrun; cbn [trace fs] in *; in_trace.
  match goal with H : makedirs _ _ _ = inr _ |- _ =>
    destruct (makedirs_output _ _ H) end.
  done.
Qed.

(** C10.  Two runs that both succeed and whose fetches return the same
    dataset make the same calls with the same outcomes (so they write the
    same dataset to the same path), leave the same bytes at
    data/raw/pbmc3k.h5ad, and emit the same text, whatever the stores and
    streams they started from. *)
Theorem runs_deterministic env1 env2 fsa fsb outa outb w1 w2 :
  run encode env1 fsa outa = (inr tt, w1) ->
  run encode env2 fsb outb = (inr tt, w2) ->
  fetch_result env1 = fetch_result env2 ->
  trace w1 = trace w2
  /\ (exists d, In (EvWrite d save_path None) (trace w1)
                /\ In (EvWrite d save_path None) (trace w2)
                /\ fs w1 !! destination = Some (File (encode d))
                /\ fs w2 !! destination = Some (File (encode d)))
  /\ emitted (trace w1) = emitted (trace w2)
  /\ (exists s, text (stdout w1) = text outa ++ s
                /\ text (stdout w2) = text outb ++ s).
Proof.
  intros H1 H2 Hf.
  pose proof (run_text _ _ _ _ _ H1) as T1.
  pose proof (run_text _ _ _ _ _ H2) as T2.
  run_cases H1. run_cases H2. cbn [fs trace] in *.
  assert (d0 = d) as -> by congruence.
  repeat match goal with
         | H : write_file _ _ _ _ _ = (None, _) |- _ =>
             apply write_file_done in H as ->
         end.
  split_and!; [done | | done | by eauto].
  exists d. rewrite !lookup_insert_eq.
  unfold full_trace. split_and!; [| | done..]; simpl; auto 10.
Qed.

(** *** Further properties of the script *)

Lemma write_file_frame d path fault fs1 o fs2 :
  write_file encode d path fault fs1 = (o, fs2) ->
  forall q, q <> Path.components path -> fs2 !! q = fs1 !! q.
Proof.
  unfold write_file. intros H q Hq.
  destruct (String.eqb path ""); [by injection H as <- <- |].
  destruct (fs1 !! Path.components path) as [[x | bs] |];
    [by injection H as <- <- | |
     destruct (fs1 !! Path.parent (Path.components path)) as [[[] |] |]].
  all: try by injection H as <- <-.
  all: destruct fault as [[n e] |]; injection H as <- <-.
  all: by rewrite lookup_insert_ne.
Qed.

Lemma write_file_keeps d path fault fs1 o fs2 :
  write_file encode d path fault fs1 = (o, fs2) ->
  forall q, is_Some (fs1 !! q) -> is_Some (fs2 !! q).
Proof.
  intros H q Hq. destruct (decide (q = Path.components path)) as [-> | Hne].
  - revert H. unfold write_file.
    destruct (String.eqb path ""); [by intros [= <- <-] |].
    destruct Hq as [[x | bs] Hq]; rewrite Hq; [by intros [= <- <-] |].
    destruct fault as [[n e] |]; intros [= <- <-]; rewrite lookup_insert_eq; eauto.
  - by rewrite (write_file_frame _ _ _ _ _ _ H q Hne).
Qed.

Lemma extends_keeps p fs1 fs2 :
  extends_towards p fs1 fs2 -> forall q, is_Some (fs1 !! q) -> is_Some (fs2 !! q).
Proof.
  intros H q Hq. destruct (H q) as [-> | (Hn & _ & _)]; [done |].
  rewrite Hn in Hq. by destruct Hq.
Qed.

(** X1.  An import that fails stops the script before it has touched
    anything: the store and standard output are what they were, no
    directory is made and nothing is fetched. *)
Theorem import_failure_touches_nothing env fs0 out0 r w m e :
  run encode env fs0 out0 = (r, w) ->
  In (EvImport m (Some e)) (trace w) ->
  fs w = fs0 /\ stdout w = out0 /\ r = inl e
  /\ calls is_makedirs (trace w) = 0 /\ calls is_fetch (trace w) = 0.
Proof.
  intros Hrun Hin. run_cases Hrun; cbn [trace fs stdout] in *; in_trace; done.
Qed.

(** X2.  When the directory cannot be made, the script stops there:
    nothing is printed, fetched or written, standard output is what it
    was, the error of the directory creation is the outcome of the
    process, and the store differs from the initial one at most by
    directories made on the way to data/raw before the error. *)
Theorem makedirs_failure_stops_early env fs0 out0 r w e :
  run encode env fs0 out0 = (r, w) ->
  In (EvMakedirs output_path true (Some e)) (trace w) ->
  extends_towards ["data"; "raw"] fs0 (fs w)
  /\ stdout w = out0 /\ r = inl e
  /\ emitted (trace w) = ""
  /\ calls is_fetch (trace w) = 0 /\ calls is_write (trace w) = 0.
Proof.
  intros Hrun Hin. run_cases Hrun; cbn [trace fs stdout] in *; in_trace.
  split_and!; [| done..]. by eapply makedirs_failed.
Qed.

(** X3.  Whatever happens, a run changes the store only at
    data/raw/pbmc3k.h5ad, at the retrieval library's cache file
    data/pbmc3k_raw.h5ad, and by making directories on the way to
    data/raw: every other entry is what it was, and no entry that was
    there before the run is gone after it. *)
Theorem run_store_frame env fs0 out0 :
  let w := (run encode env fs0 out0).2 in
  (forall q, q <> destination -> q <> cache_path ->
     fs w !! q = fs0 !! q
     \/ (fs0 !! q = None /\ fs w !! q = Some (Dir true)
         /\ q `prefix_of` ["data"; "raw"]))
  /\ (forall q, is_Some (fs0 !! q) -> is_Some (fs w !! q)).
Proof.
  pose proof (run_spec env fs0 out0) as E.
  destruct (run encode env fs0 out0) as [r w]. cbn [snd].
  inversion E; subst; cbn [fs]; clear E.
  all: try (split; [intros q _ _; by left | done]).
  all: try match goal with H : makedirs _ _ _ = inl _ |- _ =>
         pose proof (makedirs_failed _ _ _ H) as Hext end.
  all: try match goal with H : makedirs _ _ _ = inr _ |- _ =>
         destruct (makedirs_output _ _ H) as [_ Hext] end.
  all: try (split; [intros q _ _; apply Hext | by eapply extends_keeps]).
  all: match goal with H : write_file _ _ _ _ _ = _ |- _ =>
         pose proof (write_file_frame _ _ _ _ _ _ H) as Hfr;
         pose proof (write_file_keeps _ _ _ _ _ _ H) as Hkeep end.
  all: split;
    [intros q Hq Hc; rewrite (Hfr q Hq), cache_store_frame by done; apply Hext |].
  all: intros q Hq; apply Hkeep, cache_store_keeps; by eapply extends_keeps.
Qed.

(** X4.  When the write raises, the completion line is not printed: the
    run has emitted the starting line and nothing else, the error of the
    write is the outcome of the process, and data/raw is still a
    directory. *)
Theorem write_failure_prints_no_completion env fs0 out0 r w d p e :
  run encode env fs0 out0 = (r, w) ->
  In (EvWrite d p (Some e)) (trace w) ->
  r = inl e
  /\ emitted (trace w) = "Downloading PBMC 3k dataset..." ++ newline
  /\ (forall o, ~ In (EvPrint "Dataset saved to data/raw/pbmc3k.h5ad" o) (trace w))
  /\ isdir ["data"; "raw"] (fs w) = true.
Proof.
  intros Hrun Hin. run_cases Hrun; cbn [trace fs] in *; in_trace.
  split_and!; [done.. | |].
  - intros o Ho. in_trace.
  - match goal with H : makedirs _ _ _ = inr _ |- _ =>
      destruct (makedirs_output _ _ H) as [Hd _] end.
    match goal with H : write_file _ _ _ _ _ = _ |- _ =>
      pose proof (write_file_frame _ _ _ _ _ _ H ["data"; "raw"]) as Hfr end.
    unfold isdir in *.
    rewrite Hfr, cache_store_frame; [done | discriminate..].
Qed.

(** X5.  The script does not retry: a run makes the directory-creation
    call, the fetch call and the write call at most once each. *)
Theorem no_retry env fs0 out0 :
  let tr := trace (run encode env fs0 out0).2 in
  calls is_makedirs tr <= 1 /\ calls is_fetch tr <= 1 /\ calls is_write tr <= 1.
Proof.
  pose proof (run_spec env fs0 out0) as E.
  destruct (run encode env fs0 out0) as [r w]. cbn [snd].
  inversion E; subst; cbn; lia.
Qed.

(** X6.  Once the directory creation has returned, data/raw is a directory
    in the store the process leaves behind, however the run ends: the
    later calls do not remove or replace it. *)
Theorem directory_outlives_run env fs0 out0 r w :
  run encode env fs0 out0 = (r, w) ->
  In (EvMakedirs output_path true None) (trace w) ->
  isdir ["data"; "raw"] (fs w) = true.
Proof.
  intros Hrun Hin. run_cases Hrun; cbn [trace fs] in *; in_trace.
  all: match goal with H : makedirs _ _ _ = inr _ |- _ =>
         destruct (makedirs_output _ _ H) as [Hd _] end.
  all: try done.
  all: match goal with H : write_file _ _ _ _ _ = _ |- _ =>
         pose proof (write_file_frame _ _ _ _ _ _ H ["data"; "raw"]) as Hfr end.
  all: unfold isdir in *; rewrite Hfr, cache_store_frame; [done | discriminate..].
Qed.

(** X7.  The completion line tells the truth: in every run that prints
    "Dataset saved to data/raw/pbmc3k.h5ad", the store holds at that path,
    when the process ends, a file with the encoding of the dataset the
    fetch returned, also when the print itself then fails. *)
Theorem completion_line_is_truthful env fs0 out0 r w o :
  run encode env fs0 out0 = (r, w) ->
  In (EvPrint "Dataset saved to data/raw/pbmc3k.h5ad" o) (trace w) ->
  exists d, fetch_result env = inr d
    /\ fs w !! ["data"; "raw"; "pbmc3k.h5ad"] = Some (File (encode d)).
Proof.
  intros Hrun Hin. run_cases Hrun; cbn [trace fs] in *; in_trace.
  all: match goal with
       | H : write_file _ _ _ _ _ = (None, _) |- _ =>
           apply write_file_done in H as ->
       end.
  all: eexists; split; [done |].
  all: change ["data"; "raw"; "pbmc3k.h5ad"] with destination.
  all: by rewrite lookup_insert_eq.
Qed.

End ScriptFacts.

(** C1.  In every execution in which the directory creation, the fetch
    and the write all return, the store holds, when the script completes,
    a file at data/raw/pbmc3k.h5ad (relative to the working directory);
    its bytes are the container encoding of the fetched dataset, and it
    is not empty: a file of the container format starts with the format's
    signature. *)
Theorem output_file_after_success {Dataset : Type}
    (payload : Dataset -> list Byte.byte) env fs0 out0 r w :
  run (h5ad payload) env fs0 out0 = (r, w) ->
  In (EvMakedirs output_path true None) (trace w) ->
  (exists d, In (EvFetch (inr d)) (trace w)) ->
  (exists d, In (EvWrite d save_path None) (trace w)) ->
  exists d, fetch_result env = inr d
    /\ fs w !! ["data"; "raw"; "pbmc3k.h5ad"] = Some (File (h5ad payload d))
    /\ h5ad payload d <> [].
Proof.
  intros Hrun Hmk Hf Hw.
  destruct (written_file_after_success _ _ _ _ _ _ Hrun Hmk Hf Hw)
    as (d & Hd & Hfile).
  exists d. split_and!; [exact Hd | exact Hfile |].
  unfold h5ad, h5_signature. discriminate.
Qed.

(** ** The script on sample executions *)
Section Samples.
Import Sample.

Example components_output : Path.components "data/raw" = ["data"; "raw"].
Proof. reflexivity. Qed.

Example join_output :
  os_path_join output_path "pbmc3k.h5ad" = "data/raw/pbmc3k.h5ad".
Proof. reflexivity. Qed.


Lemma makedirs_again : makedirs "data/raw" true made_store = inr made_store.
Proof. vm_compute. reflexivity. Defined.

(** Without [exist_ok] the second call would raise. *)
Example makedirs_twice_strict :
  makedirs "data/raw" false made_store = inl (FileExistsError, made_store).
Proof. vm_compute. reflexivity. Qed.

Example makedirs_readonly :
  makedirs "data/raw" true {[ [] := Dir false ]}
  = inl (PermissionError, {[ [] := Dir false ]}).
Proof. vm_compute. reflexivity. Qed.

Example makedirs_file_in_the_way :
  makedirs "data/raw" true blocked_store = inl (NotADirectoryError, blocked_store).
Proof. vm_compute. reflexivity. Qed.

(** In a store that is not well formed the call can raise after it has
    made a directory, which then stays. *)
Example makedirs_leaves_parent :
  makedirs "data/raw" true orphan_store
  = inl (FileExistsError, <[ ["data"] := Dir true ]> orphan_store).
Proof. vm_compute. reflexivity. Qed.

Lemma run_online :
  run encode (online pbmc) fresh_store console = (inr tt, online_end pbmc).
Proof. vm_compute. reflexivity. Defined.

Lemma run_online_again :
  run encode (online pbmc') (saved_store pbmc) console
  = (inr tt, online_end pbmc').
Proof. vm_compute. reflexivity. Defined.

Lemma run_offline :
  run encode offline fresh_store console
  = (inl (OtherError "URLError"), offline_end).
Proof. vm_compute. reflexivity. Defined.

(** On a terminal the process ends as the module body did. *)
Lemma process_online :
  process encode (online pbmc) fresh_store console = (0%Z, online_end pbmc).
Proof. vm_compute. reflexivity. Defined.

(** Into a pipe the text waits for the exit. *)
Lemma run_piped :
  run encode (online pbmc) fresh_store pipe = (inr tt, piped_end pipe).
Proof. vm_compute. reflexivity. Defined.

Lemma process_piped :
  process encode (online pbmc) fresh_store pipe = (0%Z, piped_exit).
Proof. vm_compute. reflexivity. Defined.


Example process_closed_pipe :
  process encode (online pbmc) fresh_store closed_pipe
  = (120%Z, piped_end closed_pipe).
Proof. vm_compute. reflexivity. Qed.

(** A write cut short leaves a truncated file and the script stops. *)
Lemma run_disk_full_end :
  run encode disk_full fresh_store console
  = (inl (OtherError "disk full"), disk_full_end).
Proof. vm_compute. reflexivity. Defined.

(** A terminal that goes away after the first line: the file is written
    and the last print raises. *)
Example run_broken_pipe :
  let '(r, w) := run encode (online pbmc) fresh_store
                   {| line_buffering := true; writes_left := Some 1;
                      delivered := ""; pending := "" |} in
  r = inl BrokenPipeError
  /\ fs w !! ["data"; "raw"; "pbmc3k.h5ad"] = Some (File (encode pbmc))
  /\ text (stdout w) = "Downloading PBMC 3k dataset..." ++ newline
  /\ exit_code r (stdout w) = 1%Z.
Proof. vm_compute. done. Qed.

Lemma run_online_used :
  run encode (online pbmc) used_store prompt = (inr tt, used_end).
Proof. vm_compute. reflexivity. Defined.

Lemma run_no_scanpy :
  run encode no_scanpy fresh_store console = (inl ImportError, no_scanpy_end).
Proof. vm_compute. reflexivity. Defined.

Lemma run_blocked :
  run encode (online pbmc) blocked_store console
  = (inl NotADirectoryError, blocked_end).
Proof. vm_compute. reflexivity. Defined.

Lemma run_orphan :
  run encode (online pbmc) orphan_store console
  = (inl FileExistsError, orphan_end).
Proof. vm_compute. reflexivity. Defined.

Lemma run_first_download :
  run encode first_download fresh_store console = (inr tt, first_download_end).
Proof. vm_compute. reflexivity. Defined.


End Samples.


Lemma output_file_after_success_witness :
  exists d,
    fetch_result (Sample.online Sample.pbmc) = inr d
    /\ fs (Sample.online_end Sample.pbmc) !! ["data"; "raw"; "pbmc3k.h5ad"]
       = Some (File (h5ad (fun d => d) d))
    /\ h5ad (fun d => d) d <> [].
Proof.
  apply (output_file_after_success (fun d => d) (Sample.online Sample.pbmc)
           Sample.fresh_store Sample.console (inr tt)
           (Sample.online_end Sample.pbmc) run_online).
  - simpl. auto 10.
  - exists Sample.pbmc. simpl. auto 10.
  - exists Sample.pbmc. simpl. auto 10.
Defined.

Lemma fetch_failure_writes_nothing_witness :
  (forall d p o, ~ In (EvWrite d p o) (trace Sample.offline_end))
  /\ fs Sample.offline_end !! destination = Sample.fresh_store !! destination
  /\ @inl Exc unit (OtherError "URLError") = inl (OtherError "URLError")
  /\ exit_code (inl (OtherError "URLError")) (stdout Sample.offline_end) <> 0%Z.
Proof.
  apply (fetch_failure_writes_nothing Sample.encode Sample.offline
           Sample.fresh_store Sample.console _ _ _ run_offline).
  simpl. auto 10.
Defined.

(** Into a pipe the starting line has not reached the descriptor when the
    fetch call is made: it goes out at exit, after every call. *)
Lemma status_lines_ordering_counterexample :
  ~ start_out_before_fetch
      (timeline (process Sample.encode (Sample.online Sample.pbmc)
                   Sample.fresh_store Sample.pipe).2).
Proof.
  rewrite process_piped. intros H.
  destruct (H 4 (inr Sample.pbmc) eq_refl) as (j & Hj & Hout).
  do 4 (destruct j as [| j]; [discriminate Hout |]). lia.
Qed.

Lemma status_lines_ordering_witness :
  let tl := timeline (Sample.online_end Sample.pbmc) in
  tl !! 5 = Some (Call (EvFetch (inr Sample.pbmc)))
  /\ (exists j, j < 5
        /\ tl !! j = Some (Call (EvPrint "Downloading PBMC 3k dataset..." None)))
  /\ (exists j, j < 5 /\ tl !! j = Some (Out (start_line ++ newline)))
  /\ (exists i d, i < 7
        /\ tl !! i = Some (Call (EvWrite d "data/raw/pbmc3k.h5ad" None))).
Proof.
  pose proof (status_lines_ordering Sample.encode (Sample.online Sample.pbmc)
                Sample.fresh_store Sample.console eq_refl) as H.
  rewrite process_online in H. cbn zeta in H. cbn [snd] in H.
  destruct H as (Hcall & _ & Hline & _ & _ & Hdone).
  split_and!.
  - reflexivity.
  - apply (Hcall 5 (inr Sample.pbmc)). reflexivity.
  - apply (Hline eq_refl 5 (inr Sample.pbmc)). reflexivity.
  - apply (Hdone 7 ("Dataset saved to data/raw/pbmc3k.h5ad" ++ newline));
      [reflexivity | by left].
Defined.

Lemma second_run_overwrites_witness :
  exists d1 d2,
    fetch_result (Sample.online Sample.pbmc) = inr d1
    /\ fetch_result (Sample.online Sample.pbmc') = inr d2
    /\ fs (Sample.online_end Sample.pbmc) !! destination
       = Some (File (Sample.encode d1))
    /\ fs (Sample.online_end Sample.pbmc') !! destination
       = Some (File (Sample.encode d2)).
Proof.
  exact (second_run_overwrites Sample.encode
           (Sample.online Sample.pbmc) (Sample.online Sample.pbmc')
           Sample.fresh_store Sample.console Sample.console
           (Sample.online_end Sample.pbmc) (Sample.online_end Sample.pbmc')
           run_online run_online_again).
Defined.



Lemma dataset_passed_unchanged_witness :
  let w := (run Sample.encode (Sample.online Sample.pbmc)
              Sample.fresh_store Sample.console).2 in
  trace w !! 4 = Some (EvFetch (inr Sample.pbmc))
  /\ (exists o, trace w !! 5 = Some (EvWrite Sample.pbmc save_path o))
  /\ fs w !! destination = Some (File (Sample.encode Sample.pbmc)).
Proof.
  pose proof (dataset_passed_unchanged Sample.encode (Sample.online Sample.pbmc)
                Sample.fresh_store Sample.console) as H.
  rewrite run_online in *. cbn zeta in *. destruct H as (_ & Hnext & Hfile).
  split_and!.
  - reflexivity.
  - apply (Hnext 4). reflexivity.
  - apply (Hfile 5 Sample.pbmc save_path). reflexivity.
Defined.

Lemma status_lines_text_witness :
  let w := Sample.online_end Sample.pbmc in
  text (stdout w) = text Sample.console ++ emitted (trace w)
  /\ emitted (trace w)
     = "Downloading PBMC 3k dataset..." ++ newline
       ++ ("Dataset saved to " ++ save_path) ++ newline
  /\ @save_path = "data/raw/pbmc3k.h5ad".
Proof.
  destruct (status_lines_text Sample.encode (Sample.online Sample.pbmc)
              Sample.fresh_store Sample.console _ _ run_online)
    as (Ht & _ & Hok & Hp).
  split_and!; [exact Ht | exact (Hok eq_refl) | exact Hp].
Defined.

Lemma directory_survives_failed_fetch_witness :
  isdir ["data"; "raw"] (fs Sample.offline_end) = true
  /\ makedirs output_path true Sample.fresh_store = inr (fs Sample.offline_end)
  /\ extends_towards ["data"; "raw"] Sample.fresh_store (fs Sample.offline_end).
Proof.
  apply (directory_survives_failed_fetch Sample.encode Sample.offline
           Sample.fresh_store Sample.console _ _ (OtherError "URLError")
           run_offline).
  - simpl. auto 10.
  - simpl. auto 10.
Defined.

Lemma runs_deterministic_witness :
  exists w2,
    run Sample.encode (Sample.online Sample.pbmc) Sample.used_store
      Sample.prompt = (inr tt, w2)
    /\ trace (Sample.online_end Sample.pbmc) = trace w2
    /\ fs (Sample.online_end Sample.pbmc) !! destination = fs w2 !! destination
    /\ emitted (trace (Sample.online_end Sample.pbmc)) = emitted (trace w2).
Proof.
  eexists. split; [exact run_online_used |].
  destruct (runs_deterministic Sample.encode _ _ _ _ _ _ _ _
              run_online run_online_used eq_refl)
    as (Ht & (d & _ & _ & F1 & F2) & He & _).
  split_and!; [exact Ht | | exact He].
  exact (eq_trans F1 (eq_sym F2)).
Defined.

Lemma import_failure_touches_nothing_witness :
  fs Sample.no_scanpy_end = Sample.fresh_store
  /\ stdout Sample.no_scanpy_end = Sample.console
  /\ @inl Exc unit ImportError = inl ImportError
  /\ calls is_makedirs (trace Sample.no_scanpy_end) = 0
  /\ calls is_fetch (trace Sample.no_scanpy_end) = 0.
Proof.
  apply (import_failure_touches_nothing Sample.encode Sample.no_scanpy
           Sample.fresh_store Sample.console _ _ "scanpy" ImportError
           run_no_scanpy).
  simpl. auto.
Defined.

Lemma makedirs_failure_stops_early_witness :
  extends_towards ["data"; "raw"] Sample.orphan_store (fs Sample.orphan_end)
  /\ stdout Sample.orphan_end = Sample.console
  /\ @inl Exc unit FileExistsError = inl FileExistsError
  /\ emitted (trace Sample.orphan_end) = ""
  /\ calls is_fetch (trace Sample.orphan_end) = 0
  /\ calls is_write (trace Sample.orphan_end) = 0.
Proof.
  apply (makedirs_failure_stops_early Sample.encode (Sample.online Sample.pbmc)
           Sample.orphan_store Sample.console _ _ FileExistsError
           run_orphan).
  simpl. auto.
Defined.

Lemma run_store_frame_witness :
  fs Sample.first_download_end !! ["data"] = Some (Dir true)
  /\ Sample.fresh_store !! ["data"] = None
  /\ fs Sample.first_download_end !! cache_path
     = Some (File [Byte.x10; Byte.x11])
  /\ is_Some (fs Sample.first_download_end !! []).
Proof.
  pose proof (run_store_frame Sample.encode Sample.first_download
                Sample.fresh_store Sample.console) as H.
  rewrite run_first_download in H. cbn zeta in H. cbn [snd] in H.
  destruct H as [Hframe Hkeep].
  split_and!.
  - destruct (Hframe ["data"]) as [E | (_ & E & _)];
      [discriminate | discriminate | | exact E].
    exfalso. vm_compute in E. discriminate E.
  - vm_compute. reflexivity.
  - vm_compute. reflexivity.
  - apply Hkeep. exists (Dir true). vm_compute. reflexivity.
Defined.

Lemma write_failure_prints_no_completion_witness :
  @inl Exc unit (OtherError "disk full") = inl (OtherError "disk full")
  /\ emitted (trace Sample.disk_full_end)
     = "Downloading PBMC 3k dataset..." ++ newline
  /\ (forall o, ~ In (EvPrint "Dataset saved to data/raw/pbmc3k.h5ad" o)
                   (trace Sample.disk_full_end))
  /\ isdir ["data"; "raw"] (fs Sample.disk_full_end) = true.
Proof.
  apply (write_failure_prints_no_completion Sample.encode Sample.disk_full
           Sample.fresh_store Sample.console _ _ Sample.pbmc
           "data/raw/pbmc3k.h5ad" (OtherError "disk full") run_disk_full_end).
  simpl. auto 10.
Defined.

Lemma directory_outlives_run_witness :
  isdir ["data"; "raw"] (fs Sample.disk_full_end) = true.
Proof.
  apply (directory_outlives_run Sample.encode Sample.disk_full
           Sample.fresh_store Sample.console _ _ run_disk_full_end).
  simpl. auto 10.
Defined.

Lemma completion_line_is_truthful_witness :
  exists d, fetch_result (Sample.online Sample.pbmc) = inr d
    /\ fs (Sample.online_end Sample.pbmc) !! ["data"; "raw"; "pbmc3k.h5ad"]
       = Some (File (Sample.encode d)).
Proof.
  apply (completion_line_is_truthful Sample.encode (Sample.online Sample.pbmc)
           Sample.fresh_store Sample.console _ _ None run_online).
  simpl. auto 10.
Defined.
